(** * miniDiscordGateway: a shallow embedding of the gateway service

    The development follows the four source files of the package:
    [models.py] (response records), [discord_client.py] (the singleton
    manager of the gateway connection), [services.py] (the member-list
    query) and [main.py] (module state, the lifespan and the HTTP
    endpoint).  The gateway library itself is an external collaborator;
    only the part of its objects that the package reads or writes is
    represented. *)

From stdpp Require Import gmap strings list fin_maps pretty.

Open Scope string_scope.
Open Scope list_scope.
Open Scope Z_scope.

(** ** Python values the package relies on *)

(** The exception classes that can reach the endpoint, with the base
    class relation of Python and of the gateway library. *)
Inductive pyclass :=
| BaseException
| Exception
| ValueError
| NameError
| RuntimeError
| TypeError
| AttributeError
| TimeoutError
| CancelledError
| DiscordException
| ClientException
| discord_HTTPException
| Forbidden
| NotFound
| fastapi_HTTPException.

Global Instance pyclass_eq_dec : EqDecision pyclass.
Proof. solve_decision. Defined.

Definition base (c : pyclass) : option pyclass :=
  match c with
  | BaseException => None
  | Exception => Some BaseException
  | ValueError => Some Exception
  | NameError => Some Exception
  | RuntimeError => Some Exception
  | TypeError => Some Exception
  | AttributeError => Some Exception
  | TimeoutError => Some Exception
  | CancelledError => Some BaseException
  | DiscordException => Some Exception
  | ClientException => Some DiscordException
  | discord_HTTPException => Some DiscordException
  | Forbidden => Some discord_HTTPException
  | NotFound => Some discord_HTTPException
  | fastapi_HTTPException => Some Exception
  end.

(** [issubclass c d]: [d] is reached from [c] along [base]; the
    hierarchy above is four levels deep. *)
Fixpoint issubclass_fuel (n : nat) (c d : pyclass) : bool :=
  if decide (c = d) then true
  else match n with
       | O => false
       | S n' => match base c with
                 | Some b => issubclass_fuel n' b d
                 | None => false
                 end
       end.

Definition issubclass : pyclass → pyclass → bool := issubclass_fuel 4.

(** A raised exception object.  [Raise c msg] is an instance of class
    [c] whose [str()] is [msg]; [HTTPException] is FastAPI's, which
    carries a status code and a detail and nothing else. *)
Inductive exception :=
| Raise (c : pyclass) (msg : string)
| HTTPException (status_code : Z) (detail : string).

Definition class_of (e : exception) : pyclass :=
  match e with
  | Raise c _ => c
  | HTTPException _ _ => fastapi_HTTPException
  end.

Definition str_exception (e : exception) : string :=
  match e with
  | Raise _ msg => msg
  | HTTPException _ d => d
  end.

Definition isinstance (e : exception) (c : pyclass) : bool :=
  issubclass (class_of e) c.

(** [str(n)] for an integer: decimal digits, a leading minus sign. *)
Definition str_int (n : Z) : string := pretty n.

(** Truthiness of an optional string, as used by [x or default]. *)
Definition or_default (x : option string) (d : string) : string :=
  match x with
  | Some s => if decide (s = "") then d else s
  | None => d
  end.

(** ** models.py *)

Module UserInfo.
Record t := mk {
  id : Z;
  username : string;
  discriminator : string;
  display_name : string;
  avatar_url : option string;
  is_bot : bool;
  joined_at : option string
}.
End UserInfo.

Module GuildUsersResponse.
Record t := mk {
  guild_id : Z;
  guild_name : string;
  total_members : Z;
  users : gmap string UserInfo.t
}.
End GuildUsersResponse.

Module ErrorResponse.
Record t := mk {
  error : string;
  detail : option string
}.
End ErrorResponse.

(** ** The gateway library's objects, as far as the package uses them *)

Module Asset.
Record t := mk { url : string }.
End Asset.

(** A timestamp is used only through [isoformat()]. *)
Module datetime.
Record t := mk { isoformat : string }.
End datetime.

Module Member.
Record t := mk {
  id : Z;
  name : string;
  discriminator : option string;
  display_name : string;
  avatar : option Asset.t;
  bot : bool;
  joined_at : option datetime.t
}.
End Member.

(** [fetch_members(limit=None)] is an asynchronous iterator: it yields
    a sequence of members and then either stops or raises. *)
Module Guild.
Record t := mk {
  id : Z;
  name : string;
  fetch_members : list Member.t * option exception
}.
End Guild.

(** The [on_ready] coroutine registered on a client: [client.event]
    stores it under its name, so the last registration wins. *)
Inductive on_ready_handler :=
| default_on_ready   (* nothing registered *)
| manager_on_ready   (* discord_client.py: logs only *)
| main_on_ready.     (* main.py: logs and sets client_ready *)

Module Client.
Record t := mk {
  user : option string;
  ready : bool;
  closed : bool;
  guilds : gmap Z Guild.t;
  on_ready : on_ready_handler
}.

Definition is_ready (c : t) : bool := ready c.
Definition is_closed (c : t) : bool := closed c.
Definition get_guild (c : t) (guild_id : Z) : option Guild.t := guilds c !! guild_id.

(** The library's graceful close: the client reports closed afterwards
    and its own ready flag is cleared. *)
Definition close (c : t) : t :=
  mk (user c) false true (guilds c) (on_ready c).

Definition event (c : t) (h : on_ready_handler) : t :=
  mk (user c) (ready c) (closed c) (guilds c) h.

(** [discord.Client(intents=...)]: a fresh client, nothing cached. *)
Definition new : t := mk None false false ∅ default_on_ready.
End Client.

(** ** Calls made on the client, recorded in order *)

Inductive call :=
| is_ready_call
| get_guild_call (guild_id : Z)
| fetch_members_call (guild_id : Z).

Inductive result (A : Type) :=
| Ok (a : A)
| Err (e : exception).
Arguments Ok {A} a.
Arguments Err {A} e.

(** A computation returns the calls it made and its outcome. *)
Definition M (A : Type) : Type := list call * result A.

Definition ret {A} (a : A) : M A := ([], Ok a).
Definition raise {A} (e : exception) : M A := ([], Err e).
Definition tell (c : call) : M unit := ([c], Ok tt).
Definition bind {A B} (m : M A) (k : A → M B) : M B :=
  match m with
  | (tr, Ok a) => let '(tr', r) := k a in ((tr ++ tr')%list, r)
  | (tr, Err e) => (tr, Err e)
  end.

Notation "'let!' x ':=' m 'in' k" := (bind m (fun x => k))
  (at level 10, x name, m at level 100, k at level 200).
Notation "'do!' m 'in' k" := (bind m (fun _ => k))
  (at level 10, m at level 100, k at level 200).

(** ** services.py *)

Definition make_user_info (member : Member.t) : UserInfo.t :=
  UserInfo.mk
    (Member.id member)
    (Member.name member)
    (or_default (Member.discriminator member) "0000")
    (Member.display_name member)
    (match Member.avatar member with
     | Some a => Some (Asset.url a)
     | None => None
     end)
    (Member.bot member)
    (match Member.joined_at member with
     | Some d => Some (datetime.isoformat d)
     | None => None
     end).

(** The body of the [async for] loop, folded over the yielded members:
    [users_map[str(member.id)] = user_info]. *)
Definition collect_users (members : list Member.t) : gmap string UserInfo.t :=
  foldl (λ users_map member,
           <[str_int (Member.id member) := make_user_info member]> users_map)
        ∅ members.

Definition get_guild_users (client : Client.t) (guild_id : Z)
  : M GuildUsersResponse.t :=
  do! tell (get_guild_call guild_id) in
  match Client.get_guild client guild_id with
  | None => raise (Raise ValueError ("Guild " +:+ str_int guild_id +:+ " not found"))
  | Some guild =>
      do! tell (fetch_members_call (Guild.id guild)) in
      match Guild.fetch_members guild with
      | (_, Some e) => raise e
      | (members, None) =>
          let users_map := collect_users members in
          ret (GuildUsersResponse.mk
                 (Guild.id guild)
                 (Guild.name guild)
                 (Z.of_nat (size users_map))
                 users_map)
      end
  end.


(** ** main.py: the names bound in the module *)

(** What a name evaluates to, as far as an [except] clause needs it. *)
Inductive pyvalue :=
| VClass (c : pyclass)
| VModule (m : string)
| VObject.

Definition namespace : Type := list (string * pyvalue).

Fixpoint lookup_name (ns : namespace) (x : string) : option pyvalue :=
  match ns with
  | [] => None
  | (y, v) :: ns' => if decide (y = x) then Some v else lookup_name ns' x
  end.

Definition builtins : namespace :=
  [ ("BaseException", VClass BaseException);
    ("Exception", VClass Exception);
    ("ValueError", VClass ValueError);
    ("NameError", VClass NameError);
    ("RuntimeError", VClass RuntimeError);
    ("TypeError", VClass TypeError);
    ("AttributeError", VClass AttributeError);
    ("TimeoutError", VClass TimeoutError) ].

(** Attributes of the gateway library's top-level module. *)
Definition module_attr (m a : string) : option pyvalue :=
  if decide (m = "discord") then
    lookup_name
      [ ("DiscordException", VClass DiscordException);
        ("ClientException", VClass ClientException);
        ("HTTPException", VClass discord_HTTPException);
        ("Forbidden", VClass Forbidden);
        ("NotFound", VClass NotFound) ] a
  else None.

(** The global names of main.py, in the order the module binds them:
    its import statements, then its assignments and definitions. *)
Definition main_globals : namespace :=
  [ ("os", VModule "os");
    ("asyncio", VModule "asyncio");
    ("logging", VModule "logging");
    ("asynccontextmanager", VObject);
    ("FastAPI", VObject);
    ("HTTPException", VClass fastapi_HTTPException);
    ("JSONResponse", VObject);
    ("load_dotenv", VObject);
    ("DiscordClientManager", VObject);
    ("get_guild_users", VObject);
    ("GuildUsersResponse", VObject);
    ("ErrorResponse", VObject);
    ("logger", VObject);
    ("DISCORD_TOKEN", VObject);
    ("client", VObject);
    ("client_ready", VObject);
    ("on_ready", VObject);
    ("lifespan", VObject);
    ("app", VObject);
    ("health_check", VObject);
    ("get_guild_users_endpoint", VObject);
    ("root", VObject) ].

(** The same module with [import discord] added, as services.py and
    discord_client.py have it; used for comparison only. *)
Definition main_globals_with_discord : namespace :=
  ("discord", VModule "discord") :: main_globals.

(** The expression after [except]: a name or [module.attribute]. *)
Inductive class_expr :=
| Name (x : string)
| Attribute (m a : string).

Definition name_error (x : string) : exception :=
  Raise NameError ("name '" +:+ x +:+ "' is not defined").

Definition eval_name (globals : namespace) (x : string) : pyvalue + exception :=
  match lookup_name globals x with
  | Some v => inl v
  | None => match lookup_name builtins x with
            | Some v => inl v
            | None => inr (name_error x)
            end
  end.

Definition eval_class_expr (globals : namespace) (ce : class_expr)
  : pyclass + exception :=
  match ce with
  | Name x =>
      match eval_name globals x with
      | inl (VClass c) => inl c
      | inl _ => inr (Raise TypeError "catching classes that do not inherit from BaseException is not allowed")
      | inr e => inr e
      end
  | Attribute m a =>
      match eval_name globals m with
      | inl (VModule m') =>
          match module_attr m' a with
          | Some (VClass c) => inl c
          | Some _ => inr (Raise TypeError "catching classes that do not inherit from BaseException is not allowed")
          | None => inr (Raise AttributeError ("module '" +:+ m' +:+ "' has no attribute '" +:+ a +:+ "'"))
          end
      | inl _ => inr (Raise AttributeError ("object has no attribute '" +:+ a +:+ "'"))
      | inr e => inr e
      end
  end.

(** [try: ... except C1 as e: h1 ... except Cn as e: hn] once the body
    has raised [e]: the clauses are tried in order, each class
    expression is evaluated only when its clause is reached, and an
    exception raised while evaluating it leaves the statement. *)
Fixpoint except_clauses {A} (globals : namespace)
    (clauses : list (class_expr * (exception → M A))) (e : exception) : M A :=
  match clauses with
  | [] => raise e
  | (ce, handler) :: rest =>
      match eval_class_expr globals ce with
      | inr e' => raise e'
      | inl c => if isinstance e c then handler e
                 else except_clauses globals rest e
      end
  end.

Definition try_except {A} (globals : namespace) (body : M A)
    (clauses : list (class_expr * (exception → M A))) : M A :=
  match body with
  | (tr, Ok a) => (tr, Ok a)
  | (tr, Err e) => let '(tr', r) := except_clauses globals clauses e in
                   ((tr ++ tr')%list, r)
  end.

(** ** main.py: the member-list endpoint *)

(** The endpoint, for a given binding of the module's global names and
    the client object that the global [client] refers to. *)
Definition get_guild_users_endpoint_in (globals : namespace)
    (client : Client.t) (guild_id : Z) : M GuildUsersResponse.t :=
  if guild_id <=? 0 then
    raise (HTTPException 400 "Guild ID must be a positive integer")
  else
    do! tell is_ready_call in
    if negb (Client.is_ready client) then
      raise (HTTPException 503 "Discord client is not ready. Please try again later.")
    else
      try_except globals
        (let! result := get_guild_users client guild_id in ret result)
        [ (Name "ValueError",
            λ e, raise (HTTPException 404 (str_exception e)));
          (Attribute "discord" "Forbidden",
            λ _, raise (HTTPException 403 "Bot does not have permission to access this guild"));
          (Attribute "discord" "HTTPException",
            λ _, raise (HTTPException 502 "Discord API error. Please try again later."));
          (Name "Exception",
            λ _, raise (HTTPException 500 "An unexpected error occurred")) ].

Definition get_guild_users_endpoint : Client.t → Z → M GuildUsersResponse.t :=
  get_guild_users_endpoint_in main_globals.


(** ** The HTTP response the framework sends *)

#[local] Set Warnings "-register-all".

Inductive json :=
| JNull
| JBool (b : bool)
| JInt (n : Z)
| JStr (s : string)
| JObj (fields : list (string * json)).

Inductive http_body :=
| JSONBody (j : json)
| TextBody (s : string).

Record http_response := mk_response { status : Z; body : http_body }.

Definition json_opt_str (o : option string) : json :=
  match o with
  | Some s => JStr s
  | None => JNull
  end.

Definition UserInfo_json (u : UserInfo.t) : json :=
  JObj [ ("id", JInt (UserInfo.id u));
         ("username", JStr (UserInfo.username u));
         ("discriminator", JStr (UserInfo.discriminator u));
         ("display_name", JStr (UserInfo.display_name u));
         ("avatar_url", json_opt_str (UserInfo.avatar_url u));
         ("is_bot", JBool (UserInfo.is_bot u));
         ("joined_at", json_opt_str (UserInfo.joined_at u)) ].

Definition GuildUsersResponse_json (r : GuildUsersResponse.t) : json :=
  JObj [ ("guild_id", JInt (GuildUsersResponse.guild_id r));
         ("guild_name", JStr (GuildUsersResponse.guild_name r));
         ("total_members", JInt (GuildUsersResponse.total_members r));
         ("users", JObj (prod_map id UserInfo_json <$>
                           map_to_list (GuildUsersResponse.users r))) ].

Definition ErrorResponse_json (r : ErrorResponse.t) : json :=
  JObj [ ("error", JStr (ErrorResponse.error r));
         ("detail", json_opt_str (ErrorResponse.detail r)) ].

(** What the framework makes of the endpoint's outcome.  main.py
    registers no exception handler of its own, so the framework's
    defaults apply: a raised [HTTPException] is answered with its status
    code and the JSON object holding its detail; any other exception is
    answered with status 500 and a plain-text body. *)
Definition respond (outcome : M GuildUsersResponse.t) : http_response :=
  match snd outcome with
  | Ok r => mk_response 200 (JSONBody (GuildUsersResponse_json r))
  | Err (HTTPException status_code detail) =>
      mk_response status_code (JSONBody (JObj [ ("detail", JStr detail) ]))
  | Err (Raise _ _) => mk_response 500 (TextBody "Internal Server Error")
  end.

Fixpoint json_field (fields : list (string * json)) (k : string) : option json :=
  match fields with
  | [] => None
  | (k', v) :: rest => if decide (k' = k) then Some v else json_field rest k
  end.

(** The body shape of models.ErrorResponse: an object with a string
    under "error" and a string or null (or nothing) under "detail". *)
Definition has_error_shape (b : http_body) : bool :=
  match b with
  | JSONBody (JObj fields) =>
      match json_field fields "error" with
      | Some (JStr _) =>
          match json_field fields "detail" with
          | None | Some JNull | Some (JStr _) => true
          | Some _ => false
          end
      | _ => false
      end
  | _ => false
  end.

(** ** discord_client.py and the module state of main.py *)

Inductive task_state :=
| no_task
| task_running
| task_cancel_requested
| task_done.

(** The objects and module-level variables the package shares:
    [heap] holds the client objects, [_instance] is the class attribute
    of DiscordClientManager, [client] and [client_ready] are the globals
    of main.py ([client] names an object, [client_ready] is the flag of
    the asyncio event), [discord_task] is the lifespan's task. *)
Record State := mkState {
  heap : list Client.t;
  _instance : option nat;
  client : nat;
  client_ready : bool;
  discord_task : task_state
}.

Module DiscordClientManager.

Definition get_client (s : State) (token : string) : State * nat :=
  match _instance s with
  | None =>
      let r := length (heap s) in
      (mkState (heap s ++ [Client.event Client.new manager_on_ready])
               (Some r) (client s) (client_ready s) (discord_task s), r)
  | Some r => (s, r)
  end.

(** [start] up to the point where [client.start(token)] suspends. *)
Definition start (s : State) (token : string) : State * nat :=
  get_client s token.

(** [close] returns the new state and the objects on which it awaited
    the library's [close()], the only step of it that can fail. *)
Definition close (s : State) : State * list nat :=
  match _instance s with
  | Some r =>
      match heap s !! r with
      | Some c =>
          if bool_decide (Client.is_closed c = false) then
            (mkState (<[r := Client.close c]> (heap s))
                     None (client s) (client_ready s) (discord_task s), [r])
          else (s, [])
      | None => (s, [])   (* a reference always resolves; kept for totality *)
      end
  | None => (s, [])
  end.

End DiscordClientManager.

(** Module initialisation of main.py: the singleton is created, bound
    to [client], the event is created unset and main's [on_ready] is
    registered on the client. *)
Definition import_main (token : string) : State :=
  let '(s, r) := DiscordClientManager.get_client
                   (mkState [] None 0%nat false no_task) token in
  mkState (alter (λ c, Client.event c main_on_ready) r (heap s))
          (_instance s) r false no_task.

(** The client object that the global [client] of main.py names. *)
Definition the_client (s : State) : option Client.t := heap s !! client s.

(** ** main.py: lifespan *)

Definition startup_timeout : nat := 10.

(** The gateway's ready notification reaching client [r]: the library
    marks the client ready and runs the registered [on_ready]. *)
Definition gateway_ready (s : State) (r : nat) : State :=
  match heap s !! r with
  | Some c =>
      mkState (<[r := Client.mk (Client.user c) true (Client.closed c)
                                (Client.guilds c) (Client.on_ready c)]> (heap s))
              (_instance s) (client s)
              (match Client.on_ready c with
               | main_on_ready => true
               | _ => client_ready s
               end)
              (discord_task s)
  | None => s
  end.

(** [asyncio.wait_for(client_ready.wait(), timeout)]: [set_at] is the
    time at which the event is set, if it ever is. *)
Definition wait_for_client_ready (is_set : bool) (set_at : option nat)
    (timeout : nat) : bool :=
  if is_set then true
  else match set_at with
       | Some t => bool_decide (t ≤ timeout)%nat
       | None => false
       end.

Inductive startup :=
| serving                    (* the lifespan reached [yield] *)
| aborted (e : exception).   (* the lifespan raised before [yield] *)

(** The part of [lifespan] before [yield].  [ready_at] is the time at
    which the gateway delivers its ready notification to the started
    client, [None] when it never does (a rejected credential ends the
    task with a logged error and no notification).  When the wait times
    out, a notification that arrived during it has still reached the
    client: the library has marked it ready, only no handler has set
    the event.  [task_cancel_requested] records that [cancel()] was
    called on the task, which may already have returned. *)
Definition lifespan_startup (token : string) (s : State)
    (ready_at : option nat) : State * startup :=
  let '(s1, r) := DiscordClientManager.start s token in
  let s2 := mkState (heap s1) (_instance s1) (client s1) (client_ready s1)
                    task_running in
  let set_at :=
    match heap s2 !! r with
    | Some c => match Client.on_ready c with
                | main_on_ready => ready_at
                | _ => None
                end
    | None => None
    end in
  if wait_for_client_ready (client_ready s2) set_at startup_timeout then
    (if client_ready s2 then s2 else gateway_ready s2 r, serving)
  else
    let s3 :=
      match ready_at with
      | Some t => if bool_decide (t ≤ startup_timeout)%nat
                  then gateway_ready s2 r else s2
      | None => s2
      end in
    (mkState (heap s3) (_instance s3) (client s3) (client_ready s3)
             task_cancel_requested,
     aborted (Raise TimeoutError "")).

(** The part of [lifespan] after [yield]. *)
Definition lifespan_shutdown (s : State) : State :=
  let s1 := fst (DiscordClientManager.close s) in
  mkState (heap s1) (_instance s1) (client s1) (client_ready s1) task_done.


(** ** Sample data: the community of the end-to-end scenario *)

Definition alice : Member.t :=
  Member.mk 1001 "alice" (Some "0") "Alice"
            (Some (Asset.mk "https://cdn.discordapp.com/avatars/1001/a.png"))
            false (Some (datetime.mk "2023-01-15T10:30:00+00:00")).

Definition bot_user : Member.t :=
  Member.mk 1002 "bot-user" None "Bot" None true None.

Definition sample_guild : Guild.t :=
  Guild.mk 987654321 "My Server" ([alice; bot_user], None).

(** A community whose enumeration yields the same member twice. *)
Definition repeating_guild : Guild.t :=
  Guild.mk 7 "Echo" ([alice; alice], None).

(** A community the bot may not enumerate. *)
Definition forbidden_guild : Guild.t :=
  Guild.mk 8 "Private" ([], Some (Raise Forbidden "403 Forbidden (error code: 50001): Missing Access")).

Definition sample_client : Client.t :=
  Client.mk (Some "gateway-bot#0") true false
            {[ 987654321 := sample_guild; 7 := repeating_guild; 8 := forbidden_guild ]}
            main_on_ready.

Definition unready_client : Client.t :=
  Client.mk None false false ∅ main_on_ready.

(** The module state once a startup has succeeded at time 3. *)
Definition running_state : State :=
  fst (lifespan_startup "token" (import_main "token") (Some 3%nat)).

(** ** main.py: the other routes *)

(** [GET /health]: the readiness of the client and the name of the
    logged-in user, ["Not connected"] when there is none. *)
Definition health_check (client : Client.t) : M json :=
  do! tell is_ready_call in
  ret (JObj [ ("status", JStr "ok");
              ("discord_client_ready", JBool (Client.is_ready client));
              ("discord_bot_name",
                JStr (match Client.user client with
                      | Some u => u
                      | None => "Not connected"
                      end)) ]).

(** [GET /]. *)
Definition root : json :=
  JObj [ ("name", JStr "Mini Discord Gateway API");
         ("version", JStr "1.0.0");
         ("docs_url", JStr "/docs");
         ("openapi_url", JStr "/openapi.json") ].

(** The outcomes of the endpoint as written, exhaustively. *)
Inductive endpoint_case (client : Client.t) (guild_id : Z)
  : M GuildUsersResponse.t → Prop :=
| case_invalid :
    guild_id ≤ 0 →
    endpoint_case client guild_id
      ([], Err (HTTPException 400 "Guild ID must be a positive integer"))
| case_unready :
    0 < guild_id → Client.is_ready client = false →
    endpoint_case client guild_id
      ([is_ready_call],
       Err (HTTPException 503 "Discord client is not ready. Please try again later."))
| case_absent :
    0 < guild_id → Client.is_ready client = true →
    Client.get_guild client guild_id = None →
    endpoint_case client guild_id
      ([is_ready_call; get_guild_call guild_id],
       Err (HTTPException 404 ("Guild " +:+ str_int guild_id +:+ " not found")))
| case_found guild members :
    0 < guild_id → Client.is_ready client = true →
    Client.get_guild client guild_id = Some guild →
    Guild.fetch_members guild = (members, None) →
    endpoint_case client guild_id
      ([is_ready_call; get_guild_call guild_id; fetch_members_call (Guild.id guild)],
       Ok (GuildUsersResponse.mk (Guild.id guild) (Guild.name guild)
             (Z.of_nat (size (collect_users members))) (collect_users members)))
| case_value_error guild members e :
    0 < guild_id → Client.is_ready client = true →
    Client.get_guild client guild_id = Some guild →
    Guild.fetch_members guild = (members, Some e) →
    isinstance e ValueError = true →
    endpoint_case client guild_id
      ([is_ready_call; get_guild_call guild_id; fetch_members_call (Guild.id guild)],
       Err (HTTPException 404 (str_exception e)))
| case_escapes guild members e :
    0 < guild_id → Client.is_ready client = true →
    Client.get_guild client guild_id = Some guild →
    Guild.fetch_members guild = (members, Some e) →
    isinstance e ValueError = false →
    endpoint_case client guild_id
      ([is_ready_call; get_guild_call guild_id; fetch_members_call (Guild.id guild)],
       Err (name_error "discord")).

(** ** Further sample data *)

(** A member of the old naming scheme and one of the new, whose
    discriminator is the one-character string "0". *)
Definition carol : Member.t :=
  Member.mk 1003 "carol" (Some "4821") "Carol" None false None.

(** A community whose enumeration yields one member and then fails
    with an error derived from ValueError. *)
Definition failing_guild : Guild.t :=
  Guild.mk 9 "Broken" ([alice], Some (Raise ValueError "invalid member payload")).

(** A community that yields an id twice, with different data. *)
Definition renamed_guild : Guild.t :=
  Guild.mk 10 "Twice"
    ([Member.mk 1003 "carol" None "Carol" None false None; alice; carol], None).

Definition second_client : Client.t :=
  Client.mk (Some "gateway-bot#0") true false
            {[ 9 := failing_guild; 10 := renamed_guild ]}
            main_on_ready.

(** * Properties *)

(** ** services.py: the users map *)

Section collect.
Implicit Types (members : list Member.t) (member : Member.t).

Lemma str_int_inj (a b : Z) : str_int a = str_int b → a = b.
Proof. unfold str_int. apply (inj pretty). Qed.

Lemma collect_users_snoc members member :
  collect_users (members ++ [member]) =
  <[str_int (Member.id member) := make_user_info member]> (collect_users members).
Proof. unfold collect_users. by rewrite foldl_snoc. Qed.

(** Every entry of the map was built from a yielded member and sits
    under that member's stringified id. *)
Lemma collect_users_lookup members k u :
  collect_users members !! k = Some u →
  ∃ member, member ∈ members ∧ k = str_int (Member.id member)
            ∧ u = make_user_info member.
Proof.
  induction members as [|x members IH] using rev_ind.
  - unfold collect_users; simpl. by rewrite lookup_empty.
  - rewrite collect_users_snoc.
    intros [[<- <-]|[_ Hold]]%lookup_insert_Some.
    + exists x. split; [apply elem_of_app; right; apply list_elem_of_singleton; done | done].
    + destruct (IH Hold) as (m & Hm & ? & ?).
      exists m. split; [apply elem_of_app; by left | done].
Qed.

Lemma collect_users_key members k u :
  collect_users members !! k = Some u → k = str_int (UserInfo.id u).
Proof.
  intros (m & _ & -> & ->)%collect_users_lookup. reflexivity.
Qed.

Lemma collect_users_fresh members member :
  Member.id member ∉ Member.id <$> members →
  collect_users members !! str_int (Member.id member) = None.
Proof.
  intros Hfresh.
  destruct (collect_users members !! str_int (Member.id member)) as [u|] eqn:E;
    [|done].
  apply collect_users_lookup in E as (m & Hm & Hk & _).
  apply str_int_inj in Hk. destruct Hfresh.
  rewrite Hk. by apply list_elem_of_fmap_2.
Qed.

(** A member's entry is the one kept when no later member has its id. *)
Lemma collect_users_kept before member after :
  Member.id member ∉ Member.id <$> after →
  collect_users (before ++ member :: after) !! str_int (Member.id member)
  = Some (make_user_info member).
Proof.
  induction after as [|x after IH] using rev_ind; intros Hlater.
  - rewrite (collect_users_snoc before member). apply lookup_insert_eq.
  - rewrite fmap_app in Hlater. apply not_elem_of_app in Hlater as [Hafter Hx].
    replace (before ++ member :: after ++ [x])
      with ((before ++ member :: after) ++ [x]) by by rewrite <- app_assoc.
    rewrite collect_users_snoc, lookup_insert_ne; [by apply IH|].
    intros Heq%str_int_inj. apply Hx. simpl. rewrite Heq.
    by apply list_elem_of_singleton.
Qed.

Lemma collect_users_size members :
  NoDup (Member.id <$> members) →
  size (collect_users members) = length members.
Proof.
  induction members as [|x members IH] using rev_ind; intros Hnd.
  - reflexivity.
  - rewrite fmap_app in Hnd. apply NoDup_app in Hnd as (Hnd & Hdisj & _).
    rewrite collect_users_snoc, map_size_insert_None.
    + rewrite IH by done. rewrite length_app. simpl. lia.
    + apply collect_users_fresh. intros Hin.
      apply (Hdisj _ Hin). simpl. by apply list_elem_of_singleton.
Qed.

(** Without the distinctness of ids the map can only be smaller. *)
Lemma collect_users_size_le members :
  (size (collect_users members) ≤ length members)%nat.
Proof.
  induction members as [|x members IH] using rev_ind.
  - reflexivity.
  - rewrite collect_users_snoc, length_app. simpl.
    pose proof (map_size_insert (str_int (Member.id x)) (make_user_info x)
                  (collect_users members)) as Hsz.
    destruct (collect_users members !! str_int (Member.id x));
      unfold id in Hsz; lia.
Qed.

End collect.

(** The falsy discriminators: absent or the empty string. *)
Lemma make_user_info_default_discriminator (member : Member.t) :
  Member.discriminator member = None ∨ Member.discriminator member = Some "" →
  UserInfo.discriminator (make_user_info member) = "0000".
Proof. intros [H|H]; unfold make_user_info; simpl; by rewrite H. Qed.

(** ** The endpoint on its successful path *)

Lemma get_guild_users_found client guild_id guild members :
  Client.get_guild client guild_id = Some guild →
  Guild.fetch_members guild = (members, None) →
  get_guild_users client guild_id =
  ([get_guild_call guild_id; fetch_members_call (Guild.id guild)],
   Ok (GuildUsersResponse.mk (Guild.id guild) (Guild.name guild)
         (Z.of_nat (size (collect_users members))) (collect_users members))).
Proof.
  intros Hg Hf. unfold get_guild_users. rewrite Hg. cbn. by rewrite Hf.
Qed.

Lemma endpoint_found globals client guild_id guild members :
  0 < guild_id →
  Client.is_ready client = true →
  Client.get_guild client guild_id = Some guild →
  Guild.fetch_members guild = (members, None) →
  get_guild_users_endpoint_in globals client guild_id =
  ([is_ready_call; get_guild_call guild_id; fetch_members_call (Guild.id guild)],
   Ok (GuildUsersResponse.mk (Guild.id guild) (Guild.name guild)
         (Z.of_nat (size (collect_users members))) (collect_users members))).
Proof.
  intros Hpos Hready Hg Hf. unfold get_guild_users_endpoint_in.
  destruct (Z.leb_spec guild_id 0) as [|_]; [lia|].
  rewrite Hready. cbn [negb].
  rewrite (get_guild_users_found _ _ _ _ Hg Hf). reflexivity.
Qed.

(** ** Claims about the member-list response *)

(** C2, as amended.  For a positive identifier, a ready client and a
    cached community whose enumeration completes with [N] entries of
    pairwise distinct member ids, the endpoint returns a response whose
    [total_members] is [N], whose [users] map has [N] keys, each key
    being the stringified id of the entry stored under it, and every
    enumerated member has its entry.  [total_members] is by
    construction the number of keys. *)
Theorem member_list_counts_distinct_members
    (client : Client.t) (guild_id : Z) (guild : Guild.t)
    (members : list Member.t) :
  0 < guild_id →
  Client.is_ready client = true →
  Client.get_guild client guild_id = Some guild →
  Guild.fetch_members guild = (members, None) →
  NoDup (Member.id <$> members) →
  ∃ resp,
    snd (get_guild_users_endpoint client guild_id) = Ok resp
    ∧ GuildUsersResponse.total_members resp = Z.of_nat (length members)
    ∧ size (GuildUsersResponse.users resp) = length members
    ∧ GuildUsersResponse.total_members resp
      = Z.of_nat (size (GuildUsersResponse.users resp))
    ∧ (∀ k u, GuildUsersResponse.users resp !! k = Some u →
              k = str_int (UserInfo.id u))
    ∧ (∀ member, member ∈ members →
         GuildUsersResponse.users resp !! str_int (Member.id member)
         = Some (make_user_info member)).
Proof.
  intros Hpos Hready Hg Hf Hnd.
  unfold get_guild_users_endpoint.
  rewrite (endpoint_found _ _ _ _ _ Hpos Hready Hg Hf).
  eexists. split; [reflexivity|]. cbn.
  rewrite (collect_users_size _ Hnd).
  repeat split.
  - intros k u. apply collect_users_key.
  - intros member (before & after & ->)%list_elem_of_split.
    apply collect_users_kept.
    rewrite fmap_app, fmap_cons in Hnd.
    apply NoDup_app in Hnd as (_ & _ & Hnd).
    by apply NoDup_cons in Hnd as [? _].
Qed.

Lemma member_list_counts_distinct_members_witness :
  ∃ resp,
    snd (get_guild_users_endpoint sample_client 987654321) = Ok resp
    ∧ GuildUsersResponse.total_members resp = 2
    ∧ size (GuildUsersResponse.users resp) = 2%nat
    ∧ UserInfo.is_bot <$> GuildUsersResponse.users resp !! "1001" = Some false
    ∧ UserInfo.is_bot <$> GuildUsersResponse.users resp !! "1002" = Some true.
Proof.
  destruct (member_list_counts_distinct_members
              sample_client 987654321 sample_guild [alice; bot_user])
    as (resp & Hresp & Htotal & Hsize & _ & _ & Hall).
  - lia.
  - reflexivity.
  - reflexivity.
  - reflexivity.
  - compute_done.
  - exists resp. repeat split; try assumption.
    + change "1001" with (str_int (Member.id alice)).
      rewrite (Hall alice); [reflexivity|]. apply list_elem_of_here.
    + change "1002" with (str_int (Member.id bot_user)).
      rewrite (Hall bot_user); [reflexivity|].
      apply list_elem_of_further, list_elem_of_here.
Defined.

(** C2, as stated, fails when the enumeration repeats an id: two
    entries are enumerated and the response counts one. *)
Lemma member_list_undercounts_repeated_id :
  Client.get_guild sample_client 7 = Some repeating_guild
  ∧ Guild.fetch_members repeating_guild = ([alice; alice], None)
  ∧ ∃ resp,
      snd (get_guild_users_endpoint sample_client 7) = Ok resp
      ∧ GuildUsersResponse.total_members resp = 1
      ∧ size (GuildUsersResponse.users resp) = 1%nat
      ∧ GuildUsersResponse.total_members resp
        ≠ Z.of_nat (length [alice; alice]).
Proof.
  split; [reflexivity|]. split; [reflexivity|].
  eexists. split; [vm_compute; reflexivity|].
  repeat split; vm_compute; congruence.
Qed.

(** C10, as amended.  A member enumerated with an empty or absent
    discriminator, whose id no later entry of the enumeration reuses,
    is stored in the response under its stringified id with
    discriminator "0000". *)
Theorem absent_discriminator_defaults_to_0000
    (client : Client.t) (guild_id : Z) (guild : Guild.t)
    (before after : list Member.t) (member : Member.t) :
  0 < guild_id →
  Client.is_ready client = true →
  Client.get_guild client guild_id = Some guild →
  Guild.fetch_members guild = (before ++ member :: after, None) →
  Member.id member ∉ Member.id <$> after →
  Member.discriminator member = None ∨ Member.discriminator member = Some "" →
  ∃ resp u,
    snd (get_guild_users_endpoint client guild_id) = Ok resp
    ∧ GuildUsersResponse.users resp !! str_int (Member.id member) = Some u
    ∧ UserInfo.id u = Member.id member
    ∧ UserInfo.discriminator u = "0000".
Proof.
  intros Hpos Hready Hg Hf Hlater Hfalsy.
  unfold get_guild_users_endpoint.
  rewrite (endpoint_found _ _ _ _ _ Hpos Hready Hg Hf).
  exists (GuildUsersResponse.mk (Guild.id guild) (Guild.name guild)
            (Z.of_nat (size (collect_users (before ++ member :: after))))
            (collect_users (before ++ member :: after))),
         (make_user_info member).
  split; [reflexivity|]. split; [by apply collect_users_kept|].
  split; [reflexivity|]. by apply make_user_info_default_discriminator.
Qed.

Lemma absent_discriminator_defaults_to_0000_witness :
  ∃ resp u,
    snd (get_guild_users_endpoint sample_client 987654321) = Ok resp
    ∧ GuildUsersResponse.users resp !! "1002" = Some u
    ∧ UserInfo.id u = 1002
    ∧ UserInfo.discriminator u = "0000".
Proof.
  apply (absent_discriminator_defaults_to_0000
           sample_client 987654321 sample_guild [alice] [] bot_user).
  - lia.
  - reflexivity.
  - reflexivity.
  - reflexivity.
  - apply not_elem_of_nil.
  - left. reflexivity.
Defined.

(** C10, as stated, fails when a later entry reuses the id: the first
    member enumerated for community 10 has no discriminator, and the
    entry under its id carries the discriminator of the last one. *)
Lemma absent_discriminator_overwritten_by_later_entry :
  Client.get_guild second_client 10 = Some renamed_guild
  ∧ Guild.fetch_members renamed_guild
    = ([Member.mk 1003 "carol" None "Carol" None false None; alice; carol], None)
  ∧ Member.discriminator (Member.mk 1003 "carol" None "Carol" None false None)
    = None
  ∧ ∃ resp u,
      snd (get_guild_users_endpoint second_client 10) = Ok resp
      ∧ GuildUsersResponse.users resp !! str_int 1003 = Some u
      ∧ UserInfo.discriminator u = "4821"
      ∧ UserInfo.discriminator u ≠ "0000".
Proof.
  split; [reflexivity|]. split; [reflexivity|]. split; [reflexivity|].
  eexists _, _. split; [vm_compute; reflexivity|].
  split; [vm_compute; reflexivity|]. split; [reflexivity|]. discriminate.
Qed.

(** ** Claims about the endpoint's failures *)

(** C5.  For every identifier [guild_id ≤ 0] and whatever the client's
    state, the endpoint raises the 400 error without a single call on
    the client: no readiness check, no lookup, no enumeration. *)
Theorem nonpositive_guild_id_is_rejected (client : Client.t) (guild_id : Z) :
  guild_id ≤ 0 →
  get_guild_users_endpoint client guild_id
  = ([], Err (HTTPException 400 "Guild ID must be a positive integer"))
  ∧ status (respond (get_guild_users_endpoint client guild_id)) = 400.
Proof.
  intros Hle.
  assert (get_guild_users_endpoint client guild_id
          = ([], Err (HTTPException 400 "Guild ID must be a positive integer")))
    as ->; [|done].
  unfold get_guild_users_endpoint, get_guild_users_endpoint_in.
  destruct (Z.leb_spec guild_id 0); [reflexivity | lia].
Qed.

Lemma nonpositive_guild_id_is_rejected_witness :
  -5 ≤ 0
  ∧ get_guild_users_endpoint sample_client (-5)
    = ([], Err (HTTPException 400 "Guild ID must be a positive integer"))
  ∧ get_guild_users_endpoint unready_client 0
    = ([], Err (HTTPException 400 "Guild ID must be a positive integer")).
Proof.
  split; [lia|]. split.
  - apply (nonpositive_guild_id_is_rejected sample_client (-5)). lia.
  - apply (nonpositive_guild_id_is_rejected unready_client 0). lia.
Defined.

(** C6.  For every strictly positive identifier, a client that is not
    ready makes the endpoint raise the 503 error; the only call made on
    the client is the readiness check, the cache is not consulted and
    nothing is fetched. *)
Theorem not_ready_is_unavailable (client : Client.t) (guild_id : Z) :
  0 < guild_id →
  Client.is_ready client = false →
  get_guild_users_endpoint client guild_id
  = ([is_ready_call],
     Err (HTTPException 503 "Discord client is not ready. Please try again later."))
  ∧ status (respond (get_guild_users_endpoint client guild_id)) = 503.
Proof.
  intros Hpos Hready.
  assert (get_guild_users_endpoint client guild_id
          = ([is_ready_call],
             Err (HTTPException 503
                    "Discord client is not ready. Please try again later.")))
    as ->; [|done].
  unfold get_guild_users_endpoint, get_guild_users_endpoint_in.
  destruct (Z.leb_spec guild_id 0); [lia|].
  rewrite Hready. reflexivity.
Qed.

Lemma not_ready_is_unavailable_witness :
  0 < 987654321
  ∧ Client.is_ready unready_client = false
  ∧ get_guild_users_endpoint unready_client 987654321
    = ([is_ready_call],
       Err (HTTPException 503 "Discord client is not ready. Please try again later.")).
Proof.
  split; [lia|]. split; [reflexivity|].
  apply (not_ready_is_unavailable unready_client 987654321); [lia | reflexivity].
Defined.

(** C7.  For every strictly positive identifier, a ready client whose
    cache has no community under it makes the endpoint raise the 404
    error; the service's ValueError is caught by the first clause. *)
Theorem unknown_guild_is_not_found (client : Client.t) (guild_id : Z) :
  0 < guild_id →
  Client.is_ready client = true →
  Client.get_guild client guild_id = None →
  get_guild_users_endpoint client guild_id
  = ([is_ready_call; get_guild_call guild_id],
     Err (HTTPException 404 ("Guild " +:+ str_int guild_id +:+ " not found")))
  ∧ status (respond (get_guild_users_endpoint client guild_id)) = 404.
Proof.
  intros Hpos Hready Hg.
  assert (get_guild_users_endpoint client guild_id
          = ([is_ready_call; get_guild_call guild_id],
             Err (HTTPException 404
                    ("Guild " +:+ str_int guild_id +:+ " not found"))))
    as ->; [|done].
  unfold get_guild_users_endpoint, get_guild_users_endpoint_in.
  destruct (Z.leb_spec guild_id 0); [lia|].
  rewrite Hready. unfold get_guild_users. rewrite Hg. reflexivity.
Qed.

Lemma unknown_guild_is_not_found_witness :
  0 < 42
  ∧ Client.is_ready sample_client = true
  ∧ Client.get_guild sample_client 42 = None
  ∧ get_guild_users_endpoint sample_client 42
    = ([is_ready_call; get_guild_call 42],
       Err (HTTPException 404 "Guild 42 not found")).
Proof.
  split; [lia|]. split; [reflexivity|]. split; [reflexivity|].
  apply (unknown_guild_is_not_found sample_client 42);
    [lia | reflexivity | reflexivity].
Defined.

(** *** The clauses after the first *)

(** In main.py the name [discord] is bound nowhere. *)
Lemma discord_unbound_in_main :
  eval_name main_globals "discord" = inr (name_error "discord").
Proof. reflexivity. Qed.

Lemma eval_ValueError_in_main :
  eval_class_expr main_globals (Name "ValueError") = inl ValueError.
Proof. reflexivity. Qed.

Lemma eval_discord_Forbidden_in_main :
  eval_class_expr main_globals (Attribute "discord" "Forbidden")
  = inr (name_error "discord").
Proof. reflexivity. Qed.

Lemma eval_clauses_with_import :
  eval_class_expr main_globals_with_discord (Name "ValueError") = inl ValueError
  ∧ eval_class_expr main_globals_with_discord (Attribute "discord" "Forbidden")
    = inl Forbidden
  ∧ eval_class_expr main_globals_with_discord (Attribute "discord" "HTTPException")
    = inl discord_HTTPException
  ∧ eval_class_expr main_globals_with_discord (Name "Exception") = inl Exception.
Proof. repeat split; reflexivity. Qed.

(** Whatever the service raises that is not a ValueError reaches the
    second clause, whose class expression cannot be evaluated: the
    NameError leaves the endpoint. *)
Lemma endpoint_non_value_error (client : Client.t) (guild_id : Z)
    (tr : list call) (e : exception) :
  0 < guild_id →
  Client.is_ready client = true →
  get_guild_users client guild_id = (tr, Err e) →
  isinstance e ValueError = false →
  get_guild_users_endpoint client guild_id
  = (is_ready_call :: tr, Err (name_error "discord")).
Proof.
  intros Hpos Hready Hsvc Hcls.
  unfold get_guild_users_endpoint, get_guild_users_endpoint_in.
  destruct (Z.leb_spec guild_id 0); [lia|].
  rewrite Hready, Hsvc.
  cbn [negb bind tell ret try_except except_clauses].
  rewrite eval_ValueError_in_main, Hcls, eval_discord_Forbidden_in_main.
  cbn. by rewrite app_nil_r.
Qed.

(** So the failures after the first clause are not told apart. *)
Lemma endpoint_failures_collapse (client : Client.t) (guild_id : Z)
    (tr : list call) (e : exception) :
  0 < guild_id →
  Client.is_ready client = true →
  get_guild_users client guild_id = (tr, Err e) →
  class_of e = Forbidden ∨ class_of e = discord_HTTPException
  ∨ class_of e = RuntimeError →
  respond (get_guild_users_endpoint client guild_id)
  = mk_response 500 (TextBody "Internal Server Error").
Proof.
  intros Hpos Hready Hsvc Hcls.
  rewrite (endpoint_non_value_error client guild_id tr e); try done.
  unfold isinstance. by destruct Hcls as [->| [->| ->]].
Qed.

(** With [import discord] in the module, the same clauses tell the
    classes apart. *)
Lemma endpoint_with_import (client : Client.t) (guild_id : Z)
    (tr : list call) (e : exception) :
  0 < guild_id →
  Client.is_ready client = true →
  get_guild_users client guild_id = (tr, Err e) →
  isinstance e Exception = true →
  snd (get_guild_users_endpoint_in main_globals_with_discord client guild_id)
  = Err (if isinstance e ValueError then HTTPException 404 (str_exception e)
         else if isinstance e Forbidden then
           HTTPException 403 "Bot does not have permission to access this guild"
         else if isinstance e discord_HTTPException then
           HTTPException 502 "Discord API error. Please try again later."
         else HTTPException 500 "An unexpected error occurred").
Proof.
  intros Hpos Hready Hsvc Hexc.
  unfold get_guild_users_endpoint_in.
  destruct (Z.leb_spec guild_id 0); [lia|].
  rewrite Hready, Hsvc.
  destruct eval_clauses_with_import as (HV & HF & HH & HE).
  cbn [negb bind tell ret try_except except_clauses].
  rewrite HV, HF, HH, HE.
  destruct (isinstance e ValueError); [reflexivity|].
  destruct (isinstance e Forbidden); [reflexivity|].
  destruct (isinstance e discord_HTTPException); [reflexivity|].
  rewrite Hexc. reflexivity.
Qed.

(** C4 at a failing input.  On the community that the gateway refuses
    to enumerate, the endpoint raises no 403: a NameError leaves it and
    the framework answers 500 with its plain-text body; with the import
    in place the same request is answered 403. *)
Theorem forbidden_is_answered_500 :
  get_guild_users sample_client 8
  = ([get_guild_call 8; fetch_members_call 8],
     Err (Raise Forbidden "403 Forbidden (error code: 50001): Missing Access"))
  ∧ get_guild_users_endpoint sample_client 8
    = ([is_ready_call; get_guild_call 8; fetch_members_call 8],
       Err (Raise NameError "name 'discord' is not defined"))
  ∧ respond (get_guild_users_endpoint sample_client 8)
    = mk_response 500 (TextBody "Internal Server Error")
  ∧ snd (get_guild_users_endpoint_in main_globals_with_discord sample_client 8)
    = Err (HTTPException 403 "Bot does not have permission to access this guild").
Proof. repeat split; vm_compute; reflexivity. Qed.

(** The models.ErrorResponse shape is recognised when it is there. *)
Lemma ErrorResponse_has_error_shape (r : ErrorResponse.t) :
  has_error_shape (JSONBody (ErrorResponse_json r)) = true.
Proof. destruct r as [e [d|]]; reflexivity. Qed.

(** No response of the endpoint has it. *)
Lemma respond_never_error_shape (outcome : M GuildUsersResponse.t) :
  has_error_shape (body (respond outcome)) = false.
Proof. destruct outcome as [tr [r|[c msg|sc d]]]; reflexivity. Qed.

(** C8 at a failing input.  The 400 answer to identifier 0 carries the
    object with the single field "detail"; it has no "error" field. *)
Theorem error_body_has_no_error_field (client : Client.t) :
  respond (get_guild_users_endpoint client 0)
  = mk_response 400
      (JSONBody (JObj [ ("detail", JStr "Guild ID must be a positive integer") ]))
  ∧ has_error_shape (body (respond (get_guild_users_endpoint client 0))) = false.
Proof. split; reflexivity. Qed.

(** ** Claims about the connection's life cycle *)

(** *** close() *)

Lemma close_no_handle (s : State) :
  _instance s = None → DiscordClientManager.close s = (s, []).
Proof. intros H. unfold DiscordClientManager.close. by rewrite H. Qed.

Lemma close_already_closed (s : State) (r : nat) (c : Client.t) :
  _instance s = Some r →
  heap s !! r = Some c →
  Client.is_closed c = true →
  DiscordClientManager.close s = (s, []).
Proof.
  intros Hi Hr Hc. unfold DiscordClientManager.close.
  rewrite Hi, Hr, Hc. reflexivity.
Qed.

Lemma close_live (s : State) (r : nat) (c : Client.t) :
  _instance s = Some r →
  heap s !! r = Some c →
  Client.is_closed c = false →
  DiscordClientManager.close s
  = (mkState (<[r := Client.close c]> (heap s)) None (client s)
             (client_ready s) (discord_task s), [r]).
Proof.
  intros Hi Hr Hc. unfold DiscordClientManager.close.
  rewrite Hi, Hr, Hc. reflexivity.
Qed.

(** After any call the manager holds no live handle. *)
Lemma close_leaves_no_handle (s : State) :
  _instance (fst (DiscordClientManager.close s)) = None
  ∨ DiscordClientManager.close s = (s, []).
Proof.
  unfold DiscordClientManager.close.
  destruct (_instance s) as [r|]; [|by right].
  destruct (heap s !! r) as [c|]; [|by right].
  case_bool_decide; [by left | by right].
Qed.

(** C3, as amended.  On a handle that exists and is not closed,
    [close()] awaits the library's close on that object, which reports
    closed and not ready afterwards, and clears the manager's handle;
    the event [client_ready] and the global [client] of main.py are
    left as they were, and no other object changes. *)
Theorem close_shuts_down_and_clears_handle (s : State) (r : nat) (c : Client.t) :
  _instance s = Some r →
  heap s !! r = Some c →
  Client.is_closed c = false →
  let s' := fst (DiscordClientManager.close s) in
  snd (DiscordClientManager.close s) = [r]
  ∧ _instance s' = None
  ∧ heap s' !! r = Some (Client.close c)
  ∧ (Client.is_closed <$> heap s' !! r) = Some true
  ∧ (Client.is_ready <$> heap s' !! r) = Some false
  ∧ (∀ r', r' ≠ r → heap s' !! r' = heap s !! r')
  ∧ client_ready s' = client_ready s
  ∧ client s' = client s
  ∧ discord_task s' = discord_task s.
Proof.
  intros Hi Hr Hc. rewrite (close_live s r c Hi Hr Hc). cbn.
  assert (heap s !! r = Some c → <[r:=Client.close c]> (heap s) !! r
                                 = Some (Client.close c)) as Hsame.
  { intros H. apply list_lookup_insert_eq. by eapply lookup_lt_Some. }
  repeat split.
  - by apply Hsame.
  - by rewrite Hsame.
  - by rewrite Hsame.
  - intros r' Hne. by apply list_lookup_insert_ne.
Qed.

Lemma close_shuts_down_and_clears_handle_witness :
  _instance running_state = Some 0%nat
  ∧ (Client.is_closed <$> heap running_state !! 0%nat) = Some false
  ∧ _instance (fst (DiscordClientManager.close running_state)) = None
  ∧ (Client.is_closed <$> heap (fst (DiscordClientManager.close running_state)) !! 0%nat)
    = Some true
  ∧ client_ready (fst (DiscordClientManager.close running_state))
    = client_ready running_state.
Proof.
  split; [reflexivity|]. split; [reflexivity|].
  destruct (close_shuts_down_and_clears_handle running_state 0%nat
              (Client.mk None true false ∅ main_on_ready))
    as (_ & Hinst & _ & Hclosed & _ & _ & Hev & _); try reflexivity.
  repeat split; assumption.
Defined.

(** C3, as stated, fails: after a successful startup [client_ready] is
    set, and closing the live handle leaves it set. *)
Lemma close_leaves_client_ready_set :
  _instance running_state = Some 0%nat
  ∧ (Client.is_closed <$> heap running_state !! 0%nat) = Some false
  ∧ client_ready running_state = true
  ∧ _instance (fst (DiscordClientManager.close running_state)) = None
  ∧ client_ready (fst (DiscordClientManager.close running_state)) = true.
Proof. repeat split; reflexivity. Qed.

(** C9.  [close()] changes nothing and awaits nothing when there is no
    handle or when the handle is already closed, and a second call
    right after a first one is such a call. *)
Theorem close_idempotent (s : State) :
  (_instance s = None → DiscordClientManager.close s = (s, []))
  ∧ (∀ r c, _instance s = Some r → heap s !! r = Some c →
            Client.is_closed c = true →
            DiscordClientManager.close s = (s, []))
  ∧ DiscordClientManager.close (fst (DiscordClientManager.close s))
    = (fst (DiscordClientManager.close s), []).
Proof.
  split; [apply close_no_handle|]. split; [apply close_already_closed|].
  destruct (close_leaves_no_handle s) as [Hnone|Hsame].
  - by apply close_no_handle.
  - by rewrite Hsame.
Qed.

Lemma close_idempotent_witness :
  DiscordClientManager.close (fst (DiscordClientManager.close running_state))
  = (fst (DiscordClientManager.close running_state), [])
  ∧ DiscordClientManager.close (mkState [] None 0%nat false no_task)
    = (mkState [] None 0%nat false no_task, []).
Proof.
  split.
  - destruct (close_idempotent running_state) as (_ & _ & Hagain). exact Hagain.
  - destruct (close_idempotent (mkState [] None 0%nat false no_task))
      as (Hnone & _ & _). apply Hnone. reflexivity.
Defined.

(** *** Startup *)

Lemma wait_for_client_ready_times_out (set_at : option nat) (timeout : nat) :
  (∀ t, set_at = Some t → (timeout < t)%nat) →
  wait_for_client_ready false set_at timeout = false.
Proof.
  intros Hlate. unfold wait_for_client_ready.
  destruct set_at as [t|]; [|done].
  apply bool_decide_eq_false. specialize (Hlate t eq_refl). lia.
Qed.

(** The time at which the event is set is never earlier than the
    gateway's notification, whichever handler the client carries. *)
Lemma event_set_no_earlier (c : option Client.t) (ready_at : option nat) (t : nat) :
  match c with
  | Some c => match Client.on_ready c with
              | main_on_ready => ready_at
              | _ => None
              end
  | None => None
  end = Some t →
  ready_at = Some t.
Proof. destruct c as [[? ? ? ? []]|]; done. Qed.

(** C1, as amended.  When [client_ready] is unset as the lifespan
    starts and the gateway's ready notification does not arrive within
    the 10-unit wait (it never arrives, or arrives later), the lifespan
    calls [cancel()] on the background task and raises the timeout: it
    does not reach [yield], so the application does not start
    serving. *)
Theorem startup_timeout_aborts (token : string) (s : State)
    (ready_at : option nat) :
  client_ready s = false →
  (∀ t, ready_at = Some t → (startup_timeout < t)%nat) →
  ∃ s',
    lifespan_startup token s ready_at = (s', aborted (Raise TimeoutError ""))
    ∧ discord_task s' = task_cancel_requested
    ∧ client_ready s' = false
    ∧ snd (lifespan_startup token s ready_at) ≠ serving.
Proof.
  intros Hunset Hlate. unfold lifespan_startup.
  destruct (DiscordClientManager.start s token) as [s1 r] eqn:Hstart.
  assert (client_ready s1 = false) as Hs1.
  { unfold DiscordClientManager.start, DiscordClientManager.get_client in Hstart.
    destruct (_instance s); inversion Hstart; subst; done. }
  cbn [client_ready heap].
  rewrite Hs1, wait_for_client_ready_times_out.
  - assert (match ready_at with
            | Some t => if bool_decide (t ≤ startup_timeout)%nat
                        then gateway_ready
                               (mkState (heap s1) (_instance s1) (client s1)
                                        false task_running) r
                        else mkState (heap s1) (_instance s1) (client s1)
                                     false task_running
            | None => mkState (heap s1) (_instance s1) (client s1)
                              false task_running
            end
            = mkState (heap s1) (_instance s1) (client s1) false task_running)
      as ->.
    { destruct ready_at as [t|]; [|done].
      rewrite bool_decide_eq_false_2; [done|].
      specialize (Hlate t eq_refl). lia. }
    eexists. repeat split; done.
  - intros t Ht. apply Hlate. by eapply event_set_no_earlier.
Qed.

Lemma startup_timeout_aborts_witness :
  client_ready (import_main "bad-token") = false
  ∧ ∃ s',
      lifespan_startup "bad-token" (import_main "bad-token") None
      = (s', aborted (Raise TimeoutError ""))
      ∧ discord_task s' = task_cancel_requested
      ∧ client_ready s' = false
      ∧ snd (lifespan_startup "bad-token" (import_main "bad-token") None) ≠ serving.
Proof.
  split; [reflexivity|].
  apply (startup_timeout_aborts "bad-token" (import_main "bad-token") None).
  - reflexivity.
  - intros t Ht. discriminate Ht.
Defined.

(** C1, as stated, fails when [client_ready] is still set from an
    earlier run, which nothing clears: after a complete run of the
    lifespan a second startup, in which the gateway never notifies,
    does not cancel the task and does not raise; it reaches [yield]
    while the manager's client never became ready. *)
Lemma startup_serves_on_stale_event :
  client_ready (lifespan_shutdown running_state) = true
  ∧ lifespan_startup "token" (lifespan_shutdown running_state) None
    = (mkState [Client.mk None false true ∅ main_on_ready;
                Client.mk None false false ∅ manager_on_ready]
               (Some 1%nat) 0%nat true task_running,
       serving)
  ∧ (Client.is_ready <$>
       heap (fst (lifespan_startup "token" (lifespan_shutdown running_state) None))
       !! 1%nat) = Some false.
Proof. repeat split; reflexivity. Qed.

(** The wait is not vacuous: a notification in time lets startup
    through with the event set. *)
Lemma startup_in_time_serves :
  snd (lifespan_startup "token" (import_main "token") (Some 3%nat)) = serving
  ∧ client_ready running_state = true
  ∧ (Client.is_ready <$> the_client running_state) = Some true.
Proof. repeat split; reflexivity. Qed.

(** * Further properties of the code *)

(** ** The endpoint, case by case *)

Lemma get_guild_users_raises client guild_id guild members e :
  Client.get_guild client guild_id = Some guild →
  Guild.fetch_members guild = (members, Some e) →
  get_guild_users client guild_id =
  ([get_guild_call guild_id; fetch_members_call (Guild.id guild)], Err e).
Proof.
  intros Hg Hf. unfold get_guild_users. rewrite Hg. cbn. by rewrite Hf.
Qed.

Lemma get_guild_users_absent client guild_id :
  Client.get_guild client guild_id = None →
  get_guild_users client guild_id =
  ([get_guild_call guild_id],
   Err (Raise ValueError ("Guild " +:+ str_int guild_id +:+ " not found"))).
Proof. intros Hg. unfold get_guild_users. by rewrite Hg. Qed.

Lemma endpoint_nonpositive client guild_id :
  guild_id ≤ 0 →
  get_guild_users_endpoint client guild_id
  = ([], Err (HTTPException 400 "Guild ID must be a positive integer")).
Proof.
  intros Hle. unfold get_guild_users_endpoint, get_guild_users_endpoint_in.
  destruct (Z.leb_spec guild_id 0); [reflexivity | lia].
Qed.

Lemma endpoint_unready client guild_id :
  0 < guild_id →
  Client.is_ready client = false →
  get_guild_users_endpoint client guild_id
  = ([is_ready_call],
     Err (HTTPException 503 "Discord client is not ready. Please try again later.")).
Proof.
  intros Hpos Hready.
  unfold get_guild_users_endpoint, get_guild_users_endpoint_in.
  destruct (Z.leb_spec guild_id 0); [lia|]. by rewrite Hready.
Qed.

Lemma endpoint_value_error client guild_id tr e :
  0 < guild_id →
  Client.is_ready client = true →
  get_guild_users client guild_id = (tr, Err e) →
  isinstance e ValueError = true →
  get_guild_users_endpoint client guild_id
  = (is_ready_call :: tr, Err (HTTPException 404 (str_exception e))).
Proof.
  intros Hpos Hready Hsvc Hcls.
  unfold get_guild_users_endpoint, get_guild_users_endpoint_in.
  destruct (Z.leb_spec guild_id 0); [lia|].
  rewrite Hready, Hsvc.
  cbn [negb bind tell ret try_except except_clauses].
  rewrite eval_ValueError_in_main, Hcls. cbn. by rewrite app_nil_r.
Qed.

Lemma endpoint_cases (client : Client.t) (guild_id : Z) :
  endpoint_case client guild_id (get_guild_users_endpoint client guild_id).
Proof.
  destruct (decide (guild_id ≤ 0)) as [Hle|Hpos].
  { rewrite (endpoint_nonpositive _ _ Hle). by constructor. }
  apply Z.nle_gt in Hpos.
  destruct (Client.is_ready client) eqn:Hready.
  2:{ rewrite (endpoint_unready _ _ Hpos Hready). by constructor. }
  destruct (Client.get_guild client guild_id) as [guild|] eqn:Hg.
  2:{ rewrite (endpoint_value_error client guild_id _ _ Hpos Hready
                 (get_guild_users_absent _ _ Hg) eq_refl).
      by constructor. }
  destruct (Guild.fetch_members guild) as [members [e|]] eqn:Hf.
  2:{ unfold get_guild_users_endpoint.
      rewrite (endpoint_found _ _ _ _ _ Hpos Hready Hg Hf).
      by econstructor. }
  destruct (isinstance e ValueError) eqn:Hcls.
  - rewrite (endpoint_value_error client guild_id _ _ Hpos Hready
               (get_guild_users_raises _ _ _ _ _ Hg Hf) Hcls).
    by econstructor.
  - rewrite (endpoint_non_value_error client guild_id _ _ Hpos Hready
               (get_guild_users_raises _ _ _ _ _ Hg Hf) Hcls).
    by econstructor.
Qed.

(** ** What the endpoint answers and what it calls *)

(** X1.  As written the endpoint answers with one of the status codes
    200, 400, 503, 404 and 500; it never answers 403 or 502. *)
Theorem endpoint_status_codes (client : Client.t) (guild_id : Z) :
  let st := status (respond (get_guild_users_endpoint client guild_id)) in
  st ∈ [200; 400; 503; 404; 500] ∧ st ≠ 403 ∧ st ≠ 502.
Proof.
  cbn zeta.
  destruct (endpoint_cases client guild_id); cbn [respond snd status name_error];
    (split; [set_solver | done]).
Qed.

(** X2.  The request succeeds exactly when the identifier is positive,
    the client is ready, the community is cached and its enumeration
    runs to its end. *)
Theorem endpoint_succeeds_iff (client : Client.t) (guild_id : Z) :
  (∃ resp, snd (get_guild_users_endpoint client guild_id) = Ok resp)
  ↔ 0 < guild_id
    ∧ Client.is_ready client = true
    ∧ ∃ guild members,
        Client.get_guild client guild_id = Some guild
        ∧ Guild.fetch_members guild = (members, None).
Proof.
  split.
  - intros [resp Hresp].
    destruct (endpoint_cases client guild_id); cbn in Hresp; try discriminate.
    eauto 10.
  - intros (Hpos & Hready & guild & members & Hg & Hf).
    unfold get_guild_users_endpoint.
    rewrite (endpoint_found _ _ _ _ _ Hpos Hready Hg Hf). eauto.
Qed.

(** X3.  Members are enumerated only for a positive identifier, on a
    ready client, for the community the cache returned, and then the
    calls made are exactly the readiness check, the lookup and that one
    enumeration, in this order. *)
Theorem enumeration_only_after_checks (client : Client.t) (guild_id gid : Z) :
  fetch_members_call gid ∈ fst (get_guild_users_endpoint client guild_id) →
  0 < guild_id
  ∧ Client.is_ready client = true
  ∧ (∃ guild, Client.get_guild client guild_id = Some guild
              ∧ Guild.id guild = gid)
  ∧ fst (get_guild_users_endpoint client guild_id)
    = [is_ready_call; get_guild_call guild_id; fetch_members_call gid].
Proof.
  intros Hin.
  destruct (endpoint_cases client guild_id) as [| | |guild ?|guild ?|guild ?];
    cbn [fst] in *.
  1-3: by repeat (apply elem_of_cons in Hin as [Hin|Hin]; [discriminate|]);
          apply elem_of_nil in Hin.
  all: assert (gid = Guild.id guild) as ->
         by (repeat (apply elem_of_cons in Hin as [Hin|Hin];
                     [by inversion Hin|]); by apply elem_of_nil in Hin).
  all: eauto 10.
Qed.

Lemma enumeration_only_after_checks_witness :
  fetch_members_call 8 ∈ fst (get_guild_users_endpoint sample_client 8)
  ∧ fst (get_guild_users_endpoint sample_client 8)
    = [is_ready_call; get_guild_call 8; fetch_members_call 8].
Proof.
  assert (fetch_members_call 8 ∈ fst (get_guild_users_endpoint sample_client 8))
    as Hin by (vm_compute; apply list_elem_of_further, list_elem_of_further,
                 list_elem_of_here).
  split; [exact Hin|].
  apply (enumeration_only_after_checks sample_client 8 8 Hin).
Defined.

(** X4.  An error derived from ValueError that the enumeration raises
    is answered like an unknown community: 404, with the text of the
    exception as detail, whatever had been yielded before. *)
Theorem value_error_in_enumeration_is_404
    (client : Client.t) (guild_id : Z) (guild : Guild.t)
    (members : list Member.t) (e : exception) :
  0 < guild_id →
  Client.is_ready client = true →
  Client.get_guild client guild_id = Some guild →
  Guild.fetch_members guild = (members, Some e) →
  isinstance e ValueError = true →
  snd (get_guild_users_endpoint client guild_id)
  = Err (HTTPException 404 (str_exception e))
  ∧ status (respond (get_guild_users_endpoint client guild_id)) = 404.
Proof.
  intros Hpos Hready Hg Hf Hcls.
  rewrite (endpoint_value_error client guild_id _ _ Hpos Hready
             (get_guild_users_raises _ _ _ _ _ Hg Hf) Hcls).
  done.
Qed.

Lemma value_error_in_enumeration_is_404_witness :
  snd (get_guild_users_endpoint second_client 9)
  = Err (HTTPException 404 "invalid member payload")
  ∧ status (respond (get_guild_users_endpoint second_client 9)) = 404.
Proof.
  apply (value_error_in_enumeration_is_404 second_client 9 failing_guild
           [alice] (Raise ValueError "invalid member payload"));
    [lia | reflexivity | reflexivity | reflexivity | reflexivity].
Defined.

(** X5.  [/health] always answers, with status "ok"; its readiness
    field is false exactly when the member-list endpoint answers 503 to
    a positive identifier, and the bot name is "Not connected" when no
    user is logged in. *)
Theorem health_agrees_with_readiness_gate (client : Client.t) (guild_id : Z) :
  0 < guild_id →
  ∃ fields,
    health_check client = ([is_ready_call], Ok (JObj fields))
    ∧ json_field fields "status" = Some (JStr "ok")
    ∧ (json_field fields "discord_client_ready" = Some (JBool false)
       ↔ status (respond (get_guild_users_endpoint client guild_id)) = 503)
    ∧ (Client.user client = None →
       json_field fields "discord_bot_name" = Some (JStr "Not connected")).
Proof.
  intros Hpos. eexists. split; [reflexivity|]. split; [reflexivity|].
  split.
  - match goal with
    | |- json_field ?fs ?k = _ ↔ _ =>
        change (json_field fs k) with (Some (JBool (Client.is_ready client)))
    end.
    destruct (endpoint_cases client guild_id)
      as [Hle|_ Hr|_ Hr _|? ? _ Hr|? ? ? _ Hr|? ? ? _ Hr];
      cbn [respond snd status name_error]; try lia;
      rewrite Hr; split; intros Hx; (done || by inversion Hx).
  - intros Hu. cbn. by rewrite Hu.
Qed.

Lemma health_agrees_with_readiness_gate_witness :
  ∃ fields,
    health_check unready_client = ([is_ready_call], Ok (JObj fields))
    ∧ json_field fields "status" = Some (JStr "ok")
    ∧ (json_field fields "discord_client_ready" = Some (JBool false)
       ↔ status (respond (get_guild_users_endpoint unready_client 5)) = 503)
    ∧ (Client.user unready_client = None →
       json_field fields "discord_bot_name" = Some (JStr "Not connected")).
Proof. apply (health_agrees_with_readiness_gate unready_client 5). lia. Defined.

(** ** The users map when ids repeat *)

Lemma collect_users_dom (members : list Member.t) :
  dom (collect_users members)
  =@{gset string} list_to_set (str_int ∘ Member.id <$> members).
Proof.
  induction members as [|x members IH] using rev_ind.
  - unfold collect_users. cbn. by rewrite dom_empty_L.
  - rewrite collect_users_snoc, dom_insert_L, IH, fmap_app, list_to_set_app_L.
    cbn. rewrite union_empty_r_L. apply (comm_L (∪)).
Qed.

Lemma collect_users_has (members : list Member.t) (n : Z) :
  n ∈ Member.id <$> members → is_Some (collect_users members !! str_int n).
Proof.
  intros Hin. apply elem_of_dom. rewrite collect_users_dom.
  apply elem_of_list_to_set. rewrite list_fmap_compose.
  by apply list_elem_of_fmap_2.
Qed.

Lemma collect_users_size_distinct (members : list Member.t) :
  size (collect_users members)
  = size (list_to_set (Member.id <$> members) : gset Z).
Proof.
  induction members as [|x members IH] using rev_ind.
  - reflexivity.
  - rewrite collect_users_snoc, fmap_app, list_to_set_app_L. cbn.
    destruct (decide (Member.id x ∈ Member.id <$> members)) as [Hin|Hout].
    + rewrite map_size_insert_Some by by apply collect_users_has.
      rewrite IH, union_empty_r_L. f_equal.
      apply (elem_of_list_to_set (C:=gset Z)) in Hin.
      symmetry. rewrite (comm_L (∪)).
      apply subseteq_union_1_L. by apply singleton_subseteq_l.
    + rewrite map_size_insert_None by by apply collect_users_fresh.
      rewrite union_empty_r_L, size_union, size_singleton, IH; [lia|].
      apply disjoint_singleton_r. by rewrite elem_of_list_to_set.
Qed.

(** X6.  On success the keys of [users] are exactly the stringified ids
    that were enumerated, and [total_members] is their number: it
    counts distinct ids and never exceeds the number of entries
    enumerated.  The id and name of the response are those of the cached
    community. *)
Theorem users_keys_are_enumerated_ids
    (client : Client.t) (guild_id : Z) (guild : Guild.t)
    (members : list Member.t) :
  0 < guild_id →
  Client.is_ready client = true →
  Client.get_guild client guild_id = Some guild →
  Guild.fetch_members guild = (members, None) →
  ∃ resp,
    snd (get_guild_users_endpoint client guild_id) = Ok resp
    ∧ dom (GuildUsersResponse.users resp)
      =@{gset string} list_to_set (str_int ∘ Member.id <$> members)
    ∧ GuildUsersResponse.total_members resp
      = Z.of_nat (size (list_to_set (Member.id <$> members) : gset Z))
    ∧ GuildUsersResponse.total_members resp ≤ Z.of_nat (length members)
    ∧ GuildUsersResponse.guild_id resp = Guild.id guild
    ∧ GuildUsersResponse.guild_name resp = Guild.name guild.
Proof.
  intros Hpos Hready Hg Hf.
  unfold get_guild_users_endpoint.
  rewrite (endpoint_found _ _ _ _ _ Hpos Hready Hg Hf).
  eexists. split; [reflexivity|]. cbn.
  split; [apply collect_users_dom|]. split; [|split; [|done]].
  - by rewrite collect_users_size_distinct.
  - pose proof (collect_users_size_le members). lia.
Qed.

Lemma users_keys_are_enumerated_ids_witness :
  ∃ resp,
    snd (get_guild_users_endpoint second_client 10) = Ok resp
    ∧ dom (GuildUsersResponse.users resp) =@{gset string} {[ "1001"; "1003" ]}
    ∧ GuildUsersResponse.total_members resp = 2.
Proof.
  destruct (users_keys_are_enumerated_ids second_client 10 renamed_guild
              (fst (Guild.fetch_members renamed_guild)))
    as (resp & Hresp & Hdom & Htotal & _); [lia | reflexivity..|].
  exists resp. split; [exact Hresp|]. split.
  - rewrite Hdom. compute_done.
  - rewrite Htotal. compute_done.
Defined.

(** X7.  When an id is enumerated more than once, the response keeps
    under that id the entry built from its last occurrence. *)
Theorem repeated_id_keeps_last_entry
    (client : Client.t) (guild_id : Z) (guild : Guild.t)
    (before after : list Member.t) (member : Member.t) :
  0 < guild_id →
  Client.is_ready client = true →
  Client.get_guild client guild_id = Some guild →
  Guild.fetch_members guild = (before ++ member :: after, None) →
  Member.id member ∉ Member.id <$> after →
  ∃ resp,
    snd (get_guild_users_endpoint client guild_id) = Ok resp
    ∧ GuildUsersResponse.users resp !! str_int (Member.id member)
      = Some (make_user_info member).
Proof.
  intros Hpos Hready Hg Hf Hlater.
  unfold get_guild_users_endpoint.
  rewrite (endpoint_found _ _ _ _ _ Hpos Hready Hg Hf).
  eexists. split; [reflexivity|]. by apply collect_users_kept.
Qed.

Lemma repeated_id_keeps_last_entry_witness :
  ∃ resp,
    snd (get_guild_users_endpoint second_client 10) = Ok resp
    ∧ UserInfo.discriminator <$> GuildUsersResponse.users resp !! "1003"
      = Some "4821".
Proof.
  destruct (repeated_id_keeps_last_entry second_client 10 renamed_guild
              [Member.mk 1003 "carol" None "Carol" None false None; alice]
              [] carol)
    as (resp & Hresp & Hentry);
    [lia | reflexivity | reflexivity | reflexivity | apply not_elem_of_nil |].
  exists resp. split; [exact Hresp|].
  change "1003" with (str_int (Member.id carol)). by rewrite Hentry.
Defined.

(** X8.  A discriminator that is present and not empty is passed on
    unchanged, the one-character "0" of the new naming scheme included:
    only the absent and the empty one are replaced. *)
Theorem present_discriminator_is_kept
    (client : Client.t) (guild_id : Z) (guild : Guild.t)
    (before after : list Member.t) (member : Member.t) (d : string) :
  0 < guild_id →
  Client.is_ready client = true →
  Client.get_guild client guild_id = Some guild →
  Guild.fetch_members guild = (before ++ member :: after, None) →
  Member.id member ∉ Member.id <$> after →
  Member.discriminator member = Some d →
  d ≠ "" →
  ∃ resp u,
    snd (get_guild_users_endpoint client guild_id) = Ok resp
    ∧ GuildUsersResponse.users resp !! str_int (Member.id member) = Some u
    ∧ UserInfo.discriminator u = d.
Proof.
  intros Hpos Hready Hg Hf Hlater Hd Hne.
  unfold get_guild_users_endpoint.
  rewrite (endpoint_found _ _ _ _ _ Hpos Hready Hg Hf).
  eexists _, (make_user_info member).
  split; [reflexivity|]. split; [by apply collect_users_kept|].
  unfold make_user_info; cbn. rewrite Hd. cbn. by case_decide.
Qed.

Lemma present_discriminator_is_kept_witness :
  ∃ resp u,
    snd (get_guild_users_endpoint sample_client 987654321) = Ok resp
    ∧ GuildUsersResponse.users resp !! "1001" = Some u
    ∧ UserInfo.discriminator u = "0".
Proof.
  apply (present_discriminator_is_kept sample_client 987654321 sample_guild
           [] [bot_user] alice "0");
    [lia | reflexivity | reflexivity | reflexivity | | reflexivity | done].
  intros Hin. apply list_elem_of_singleton in Hin. discriminate Hin.
Defined.

(** ** The singleton and the lifespan *)

(** X9.  [get_client] is a singleton accessor: after any call the
    manager holds the returned object and every further call returns it
    without changing anything; objects that existed are untouched; and
    when there was no handle the returned object is a new one, neither
    ready nor closed, carrying the manager's logging [on_ready]. *)
Theorem get_client_singleton (s : State) (token token' : string) :
  let s1 := fst (DiscordClientManager.get_client s token) in
  let r1 := snd (DiscordClientManager.get_client s token) in
  _instance s1 = Some r1
  ∧ DiscordClientManager.get_client s1 token' = (s1, r1)
  ∧ (∀ r c, heap s !! r = Some c → heap s1 !! r = Some c)
  ∧ client s1 = client s
  ∧ client_ready s1 = client_ready s
  ∧ (∀ r, _instance s = Some r → s1 = s ∧ r1 = r)
  ∧ (_instance s = None →
     heap s !! r1 = None
     ∧ heap s1 !! r1 = Some (Client.mk None false false ∅ manager_on_ready)).
Proof.
  unfold DiscordClientManager.get_client.
  destruct (_instance s) as [r|] eqn:Hi; cbn.
  - rewrite Hi. repeat split; try done; congruence.
  - repeat split; try done.
    + intros r c Hr. by apply lookup_app_l_Some.
    + by apply lookup_ge_None_2.
    + by rewrite list_lookup_middle.
Qed.

(** X10.  After [close()] on a live handle, the next [get_client]
    makes a different object and leaves the closed one in place: the
    global [client] of main.py, bound once at import, keeps naming the
    closed object and is no longer the manager's singleton. *)
Theorem get_client_after_close_is_another_object
    (s : State) (r : nat) (c : Client.t) (token : string) :
  _instance s = Some r →
  heap s !! r = Some c →
  Client.is_closed c = false →
  client s = r →
  let s1 := fst (DiscordClientManager.close s) in
  let s2 := fst (DiscordClientManager.get_client s1 token) in
  let r2 := snd (DiscordClientManager.get_client s1 token) in
  r2 ≠ r
  ∧ _instance s2 = Some r2
  ∧ heap s2 !! r2 = Some (Client.mk None false false ∅ manager_on_ready)
  ∧ client s2 = r
  ∧ the_client s2 = Some (Client.close c)
  ∧ _instance s2 ≠ Some (client s2).
Proof.
  intros Hi Hr Hc Hcl. rewrite (close_live s r c Hi Hr Hc). cbn.
  pose proof (lookup_lt_Some _ _ _ Hr) as Hlt.
  assert (length (<[r:=Client.close c]> (heap s)) ≠ r) as Hne
    by (rewrite length_insert; lia).
  repeat split; try done.
  - by rewrite list_lookup_middle.
  - unfold the_client. cbn. rewrite Hcl, lookup_app_l
      by (rewrite length_insert; lia).
    by apply list_lookup_insert_eq.
  - rewrite Hcl. congruence.
Qed.

Lemma get_client_after_close_is_another_object_witness :
  let s1 := fst (DiscordClientManager.close running_state) in
  snd (DiscordClientManager.get_client s1 "token") ≠ 0%nat
  ∧ (Client.is_closed <$> the_client (fst (DiscordClientManager.get_client s1 "token")))
    = Some true.
Proof.
  destruct (get_client_after_close_is_another_object running_state 0%nat
              (Client.mk None true false ∅ main_on_ready) "token")
    as (Hne & _ & _ & _ & Hold & _); try reflexivity.
  cbn zeta. split; [exact Hne|]. by rewrite Hold.
Defined.

(** X11.  When the started client carries main's [on_ready] and the
    gateway notifies it within the wait, startup reaches [yield] with
    the event set and the task running; if the event was unset before,
    the client it serves is ready. *)
Theorem startup_serves_when_notified_in_time
    (token : string) (s : State) (r : nat) (c : Client.t) (t : nat) :
  _instance s = Some r →
  heap s !! r = Some c →
  Client.on_ready c = main_on_ready →
  (t ≤ startup_timeout)%nat →
  let s' := fst (lifespan_startup token s (Some t)) in
  snd (lifespan_startup token s (Some t)) = serving
  ∧ client_ready s' = true
  ∧ discord_task s' = task_running
  ∧ _instance s' = Some r
  ∧ (client_ready s = false →
     (Client.is_ready <$> heap s' !! r) = Some true).
Proof.
  intros Hi Hr Hh Ht.
  unfold lifespan_startup, DiscordClientManager.start,
    DiscordClientManager.get_client.
  rewrite Hi. cbn [heap client_ready]. rewrite Hr, Hh.
  unfold wait_for_client_ready.
  destruct (client_ready s) eqn:Hev; cbn.
  - repeat split; done.
  - rewrite bool_decide_eq_true_2 by done. cbn.
    unfold gateway_ready. cbn. rewrite Hr, Hh. cbn.
    repeat split; try done.
    intros _. rewrite list_lookup_insert_eq by by eapply lookup_lt_Some. done.
Qed.

Lemma startup_serves_when_notified_in_time_witness :
  snd (lifespan_startup "token" (import_main "token") (Some 10%nat)) = serving
  ∧ client_ready (fst (lifespan_startup "token" (import_main "token") (Some 10%nat)))
    = true.
Proof.
  destruct (startup_serves_when_notified_in_time "token" (import_main "token")
              0%nat (Client.mk None false false ∅ main_on_ready) 10)
    as (Hs & Hev & _); [reflexivity | reflexivity | reflexivity | |].
  - unfold startup_timeout. lia.
  - split; assumption.
Defined.

(** X12.  When [client_ready] is already set, startup does not wait:
    it reaches [yield] whatever the gateway does and marks no client
    ready on the way. *)
Theorem startup_passes_when_event_already_set
    (token : string) (s : State) (ready_at : option nat) :
  client_ready s = true →
  lifespan_startup token s ready_at = lifespan_startup token s None
  ∧ snd (lifespan_startup token s ready_at) = serving
  ∧ heap (fst (lifespan_startup token s ready_at))
    = heap (fst (DiscordClientManager.get_client s token)).
Proof.
  intros Hev.
  unfold lifespan_startup, DiscordClientManager.start,
    DiscordClientManager.get_client.
  destruct (_instance s); cbn; rewrite Hev; cbn; done.
Qed.

Lemma startup_passes_when_event_already_set_witness :
  client_ready (lifespan_shutdown running_state) = true
  ∧ snd (lifespan_startup "token" (lifespan_shutdown running_state) (Some 99%nat))
    = serving.
Proof.
  split; [reflexivity|].
  destruct (startup_passes_when_event_already_set "token"
              (lifespan_shutdown running_state) (Some 99%nat))
    as (_ & Hs & _); [reflexivity | exact Hs].
Defined.



(** X14.  Shutdown ends with the task done and no live handle held by
    the manager; it leaves [client_ready] and the global [client] as
    they were, and running it again changes nothing. *)
Theorem shutdown_clears_handle_keeps_event (s : State) :
  let s' := lifespan_shutdown s in
  discord_task s' = task_done
  ∧ client_ready s' = client_ready s
  ∧ client s' = client s
  ∧ (∀ r c, _instance s' = Some r → heap s' !! r = Some c →
            Client.is_closed c = true)
  ∧ lifespan_shutdown s' = s'.
Proof.
  unfold lifespan_shutdown, DiscordClientManager.close.
  destruct (_instance s) as [r|] eqn:Hi; cbn; [|by rewrite Hi].
  destruct (heap s !! r) as [c|] eqn:Hr; cbn.
  - case_bool_decide as Hc; cbn.
    + done.
    + rewrite Hi. cbn. rewrite Hr. cbn.
      rewrite bool_decide_eq_false_2 by done. cbn.
      repeat split; try done.
      intros r' c' [= <-] Hr'. rewrite Hr in Hr'. injection Hr' as <-.
      by destruct (Client.is_closed c).
  - rewrite Hi. cbn. rewrite Hr. cbn. repeat split; try done.
    intros r' c' [= <-] Hr'. congruence.
Qed.

Lemma startup_in_time_state
    (token : string) (s : State) (r : nat) (c : Client.t) (t : nat) :
  _instance s = Some r →
  heap s !! r = Some c →
  Client.on_ready c = main_on_ready →
  (t ≤ startup_timeout)%nat →
  ∃ h c1,
    lifespan_startup token s (Some t)
    = (mkState h (Some r) (client s) true task_running, serving)
    ∧ h !! r = Some c1
    ∧ Client.is_closed c1 = Client.is_closed c
    ∧ length h = length (heap s).
Proof.
  intros Hi Hr Hh Ht.
  unfold lifespan_startup, DiscordClientManager.start,
    DiscordClientManager.get_client.
  rewrite Hi. cbn [heap client_ready]. rewrite Hr, Hh.
  unfold wait_for_client_ready.
  destruct (client_ready s) eqn:Hev; cbn.
  - rewrite Hi. by exists (heap s), c.
  - rewrite bool_decide_eq_true_2 by done. cbn.
    unfold gateway_ready. cbn. rewrite Hr, Hh, Hi.
    eexists _, _. split; [reflexivity|].
    split; [apply list_lookup_insert_eq; by eapply lookup_lt_Some|].
    split; [done|]. by rewrite length_insert.
Qed.

Lemma shutdown_live (s : State) (r : nat) (c : Client.t) :
  _instance s = Some r →
  heap s !! r = Some c →
  Client.is_closed c = false →
  lifespan_shutdown s
  = mkState (<[r := Client.close c]> (heap s)) None (client s)
            (client_ready s) task_done.
Proof.
  intros Hi Hr Hc. unfold lifespan_shutdown.
  by rewrite (close_live s r c Hi Hr Hc).
Qed.

Lemma startup_event_set_no_handle
    (token : string) (s : State) (ready_at : option nat) :
  client_ready s = true →
  _instance s = None →
  lifespan_startup token s ready_at
  = (mkState (heap s ++ [Client.mk None false false ∅ manager_on_ready])
             (Some (length (heap s))) (client s) true task_running,
     serving).
Proof.
  intros Hev Hi.
  unfold lifespan_startup, DiscordClientManager.start,
    DiscordClientManager.get_client.
  rewrite Hi. cbn. rewrite Hev. done.
Qed.

(** X15.  A complete run of the lifespan leaves [client_ready] set, so
    a second run serves at once, whatever the gateway does, while the
    manager's new client is not ready and the global [client] names the
    closed one. *)
Theorem second_startup_serves_unready_client
    (token token' : string) (s : State) (r : nat) (c : Client.t)
    (t : nat) (ready_at : option nat) :
  _instance s = Some r →
  heap s !! r = Some c →
  client s = r →
  Client.on_ready c = main_on_ready →
  Client.is_closed c = false →
  (t ≤ startup_timeout)%nat →
  let s1 := fst (lifespan_startup token s (Some t)) in
  let s2 := lifespan_shutdown s1 in
  let s3 := fst (lifespan_startup token' s2 ready_at) in
  snd (lifespan_startup token' s2 ready_at) = serving
  ∧ (∃ r', _instance s3 = Some r' ∧ r' ≠ r
           ∧ (Client.is_ready <$> heap s3 !! r') = Some false)
  ∧ (Client.is_closed <$> the_client s3) = Some true.
Proof.
  intros Hi Hr Hcl Hh Hc Ht.
  pose proof (lookup_lt_Some _ _ _ Hr) as Hlt.
  destruct (startup_in_time_state token s r c t Hi Hr Hh Ht)
    as (h & c1 & -> & Hr1 & Hc1 & Hlen).
  cbn [fst].
  rewrite (shutdown_live (mkState h (Some r) (client s) true task_running)
             r c1 eq_refl Hr1) by congruence.
  cbn [client client_ready heap].
  rewrite startup_event_set_no_handle by done.
  cbn [fst snd heap _instance client].
  split; [done|]. split.
  - eexists. split; [done|]. rewrite length_insert.
    split; [lia|]. by rewrite list_lookup_middle by by rewrite length_insert.
  - unfold the_client. cbn [heap client]. rewrite Hcl.
    rewrite lookup_app_l by (rewrite length_insert; lia).
    by rewrite list_lookup_insert_eq by lia.
Qed.

Lemma second_startup_serves_unready_client_witness :
  let s2 := lifespan_shutdown running_state in
  snd (lifespan_startup "token" s2 None) = serving
  ∧ (Client.is_closed <$> the_client (fst (lifespan_startup "token" s2 None)))
    = Some true.
Proof.
  destruct (second_startup_serves_unready_client "token" "token"
              (import_main "token") 0%nat
              (Client.mk None false false ∅ main_on_ready) 3 None)
    as (Hs & _ & Hold); try reflexivity.
  - unfold startup_timeout. lia.
  - cbn zeta. split; [exact Hs | exact Hold].
Defined.
